(** * GoCert client: a shallow embedding of [src/gocert.py]

    The module is a thin HTTP client.  Every method of the class [GoCert]
    performs one call of the [requests] library inside a [try] block, calls
    [raise_for_status] on the response, and maps the outcome to a return
    value and, for some methods, a log record.

    The embedding keeps what the claims are about:
    - the object [self] with its two attributes,
    - the module logger, as the list of records it was handed,
    - the network, as a function from the requests sent so far and the
      request being sent to the outcome of the call,
    - Python's control flow: exceptions, [try]/[except], [return], and the
      method's local variable [req], which is unbound until assigned. *)

From Stdlib Require Import ZArith String List Bool Lia.
From Stdlib Require Import Floats.SpecFloat.
Import ListNotations.

#[local] Set Warnings "-register-all".

Local Open Scope string_scope.
Local Open Scope Z_scope.

(** ** Python values *)

(** The values [json.loads] produces, which are also the values the methods
    hand to the logger and store in the dataclasses.  A dict is kept as its
    items in insertion order. *)
Inductive pyobj : Type :=
| PyNone
| PyBool (b : bool)
| PyInt (n : Z)
| PyFloat (f : spec_float)
| PyStr (s : string)
| PyList (xs : list pyobj)
| PyDict (items : list (string * pyobj)).

(** [bool(v)], the test of [if v] and of [v if v else w]. *)
Definition truthy (v : pyobj) : bool :=
  match v with
  | PyNone => false
  | PyBool b => b
  | PyInt n => negb (n =? 0)
  | PyFloat (S754_zero _) => false
  | PyFloat _ => true
  | PyStr EmptyString => false
  | PyStr _ => true
  | PyList [] => false
  | PyList _ => true
  | PyDict [] => false
  | PyDict _ => true
  end.

Fixpoint dict_lookup (items : list (string * pyobj)) (key : string) : option pyobj :=
  match items with
  | [] => None
  | (k, v) :: rest => if String.eqb k key then Some v else dict_lookup rest key
  end.

(** [d.get(key, default)] on a dict. *)
Definition dict_get (items : list (string * pyobj)) (key : string) (default : pyobj) : pyobj :=
  match dict_lookup items key with
  | Some v => v
  | None => default
  end.

(** The one-character strings a [for] loop over a [str] yields. *)
Fixpoint str_chars (s : string) : list pyobj :=
  match s with
  | EmptyString => []
  | String c rest => PyStr (String c EmptyString) :: str_chars rest
  end.

(** [int(f)] on a finite float: truncation toward zero. *)
Definition float_trunc (s : bool) (m : positive) (e : Z) : Z :=
  let magnitude := Z.shiftl (Z.pos m) e in
  if s then - magnitude else magnitude.

(** ** Exceptions *)

(** What [requests.get] and [requests.post] raise when no response is
    obtained.  The first three are subclasses of
    [requests.RequestException]; [SSLError] is the TLS failure. *)
Inductive failure : Type :=
| ConnectionError
| SSLError
| Timeout
| OSError.

Inductive exn : Type :=
| RequestFailed (f : failure)
| HTTPError
| JSONDecodeError
| UnboundLocalError
| AttributeError
| TypeError
| ValueError
| OverflowError
| UnicodeDecodeError.

(** What the call raises that is neither a [RequestException] nor an
    [OSError]: [http.client] rejects a header value that ends in a
    newline with a plain [ValueError], and following a redirect whose
    [Location] is not UTF-8 ends in [UnicodeDecodeError]. *)
Inductive stray : Type :=
| InvalidHeaderValue
| UndecodableLocation.

Definition stray_exn (x : stray) : exn :=
  match x with
  | InvalidHeaderValue => ValueError
  | UndecodableLocation => UnicodeDecodeError
  end.

(** The clause [except (requests.RequestException, OSError)].
    [HTTPError] and [requests]' [JSONDecodeError] derive from
    [RequestException]. *)
Definition caught (e : exn) : bool :=
  match e with
  | RequestFailed _ | HTTPError | JSONDecodeError => true
  | UnboundLocalError | AttributeError | TypeError | ValueError | OverflowError
  | UnicodeDecodeError => false
  end.

(** ** The data model of the module *)

(** [@dataclass(frozen=True) class CertificateRequest].  The dataclass does
    not check the annotations [int], [str], [str]: a field holds whatever
    the constructor was given. *)
Record CertificateRequest : Type := mkCertificateRequest {
  id : pyobj;
  csr : pyobj;
  certificate : pyobj
}.

(** [@dataclass class CertificateRequests]. *)
Record CertificateRequests : Type := mkCertificateRequests {
  rows : list CertificateRequest
}.

(** An instance of [class GoCert]: the attributes [__init__] sets.
    [ca_path] may be [None]. *)
Record GoCert : Type := mkGoCert {
  url : string;
  ca_path : option string
}.

Definition API_VERSION : string := "v1".

(** [GoCert.__init__]. *)
Definition init (url : string) (ca_path : option string) : GoCert :=
  {| url := url; ca_path := ca_path |}.

(** ** The HTTP library *)

Inductive http_method : Type := GET | POST.

(** A call [requests.get(target, ...)] or [requests.post(target, ...)] with
    its keyword arguments. *)
Record request : Type := mkRequest {
  method : http_method;
  target : string;
  verify : option string;
  json : option pyobj;
  headers : list (string * string);
  data : option string
}.

(** A [requests.Response]: its [status_code], its [text], and what [json()]
    gives for its body ([None] when the body does not decode, in which case
    [json()] raises [JSONDecodeError]). *)
Record Response : Type := mkResponse {
  status_code : Z;
  text : string;
  decoded : option pyobj
}.

(** How a call of [requests.get] or [requests.post] ends: with an
    exception of the classes the methods catch, with one outside them,
    or with a response. *)
Inductive outcome : Type :=
| Failed (f : failure)
| Threw (x : stray)
| Responded (r : Response).

(** [Response.raise_for_status] raises [HTTPError] for the client error and
    server error classes, and for no other status. *)
Definition is_error_status (status : Z) : bool :=
  ((400 <=? status) && (status <? 500)) || ((500 <=? status) && (status <? 600)).

(** The success class of HTTP statuses. *)
Definition is_2xx (status : Z) : bool :=
  (200 <=? status) && (status <? 300).

(** ** The logger *)

Inductive level : Type := ERROR | WARNING | INFO.

Record log_record : Type := mkLogRecord {
  levelname : level;
  msg : string;
  args : list pyobj
}.

(** ** Program states *)

(** What persists across method calls: the client object, the records
    given to the logger, and the requests sent, oldest first. *)
Record world : Type := mkWorld {
  self : GoCert;
  log : list log_record;
  sent : list request
}.

Definition new_world (client : GoCert) : world :=
  {| self := client; log := []; sent := [] |}.

(** The world once [rq] has gone out. *)
Definition with_sent (w : world) (rq : request) : world :=
  {| self := self w; log := log w; sent := sent w ++ [rq] |}.

(** The world once the logger has been handed [entry]. *)
Definition with_log (w : world) (entry : log_record) : world :=
  {| self := self w; log := log w ++ [entry]; sent := sent w |}.

(** A running method: the world and the local variable [req]
    ([None] while it is unbound). *)
Record machine : Type := mkMachine {
  globals : world;
  req : option Response
}.

(** How a piece of a method body ends: normally with a value, with a
    [return] statement, or with an exception. *)
Inductive res (R A : Type) : Type :=
| Ok (a : A)
| Return (v : R)
| Raise (e : exn).
Arguments Ok {R A} a.
Arguments Return {R A} v.
Arguments Raise {R A} e.

(** How a method call ends. *)
Inductive result (R : Type) : Type :=
| Returns (v : R)
| Raises (e : exn).
Arguments Returns {R} v.
Arguments Raises {R} e.

Definition M (R A : Type) : Type := machine -> res R A * machine.

Definition ret {R A} (a : A) : M R A := fun m => (Ok a, m).

Definition bind {R A B} (c : M R A) (k : A -> M R B) : M R B :=
  fun m =>
    match c m with
    | (Ok a, m') => k a m'
    | (Return v, m') => (Return v, m')
    | (Raise e, m') => (Raise e, m')
    end.

Definition raise {R A} (e : exn) : M R A := fun m => (Raise e, m).

(** The statement [return v]. *)
Definition return_ {R A} (v : R) : M R A := fun m => (Return v, m).

Declare Scope py_scope.
Delimit Scope py_scope with py.
Notation "x <- c ;; k" := (bind c (fun x => k))
  (at level 61, c at next level, right associativity) : py_scope.
Notation "c ;; k" := (bind c (fun _ => k))
  (at level 61, right associativity) : py_scope.
Local Open Scope py_scope.

(** [try: body except (requests.RequestException, OSError): handler].
    The handler runs in the state the body left. *)
Definition try_except {R A} (body handler : M R A) : M R A :=
  fun m =>
    match body m with
    | (Raise e, m') => if caught e then handler m' else (Raise e, m')
    | other => other
    end.

(** A method all of whose paths end in [return] or in an exception. *)
Definition def_ {R} (body : M R Empty_set) (w : world) : result R * world :=
  match body {| globals := w; req := None |} with
  | (Ok a, _) => match a with end
  | (Return v, m) => (Returns v, globals m)
  | (Raise e, m) => (Raises e, globals m)
  end.

(** A method annotated [-> None] whose body may run to its end. *)
Definition def_none (body : M unit unit) (w : world) : result unit * world :=
  match body {| globals := w; req := None |} with
  | (Ok _, m) => (Returns tt, globals m)
  | (Return v, m) => (Returns v, globals m)
  | (Raise e, m) => (Raises e, globals m)
  end.

(** Reading [self]. *)
Definition get_self {R} : M R GoCert := fun m => (Ok (self (globals m)), m).

(** The assignment [req = ...]. *)
Definition assign_req {R} (r : Response) : M R unit :=
  fun m => (Ok tt, {| globals := globals m; req := Some r |}).

(** Reading the local variable [req]. *)
Definition load_req {R} : M R Response :=
  fun m =>
    match req m with
    | Some r => (Ok r, m)
    | None => (Raise UnboundLocalError, m)
    end.

(** [req.raise_for_status()]. *)
Definition raise_for_status {R} (r : Response) : M R unit :=
  if is_error_status (status_code r) then raise HTTPError else ret tt.

(** [req.json()]. *)
Definition response_json {R} (r : Response) : M R pyobj :=
  match decoded r with
  | Some v => ret v
  | None => raise JSONDecodeError
  end.

(** [logger.error], [logger.warning], [logger.info]. *)
Definition logger_log {R} (lvl : level) (fmt : string) (a : list pyobj) : M R unit :=
  fun m =>
    (Ok tt,
     {| globals := with_log (globals m) {| levelname := lvl; msg := fmt; args := a |};
        req := req m |}).

(** [o.get(key, default)]: only a dict has the method. *)
Definition py_get {R} (o : pyobj) (key : string) (default : pyobj) : M R pyobj :=
  match o with
  | PyDict items => ret (dict_get items key default)
  | _ => raise AttributeError
  end.

(** The elements a [for] clause draws from [o]. *)
Definition py_iter {R} (o : pyobj) : M R (list pyobj) :=
  match o with
  | PyList xs => ret xs
  | PyDict items => ret (map (fun kv => PyStr (fst kv)) items)
  | PyStr s => ret (str_chars s)
  | PyNone | PyBool _ | PyInt _ | PyFloat _ => raise TypeError
  end.

(** A list comprehension [[f x for x in xs]]. *)
Fixpoint comprehension {R A B} (f : A -> M R B) (xs : list A) : M R (list B) :=
  match xs with
  | [] => ret []
  | x :: rest =>
      y <- f x ;;
      ys <- comprehension f rest ;;
      ret (y :: ys)
  end.

(** [self.ca_path if self.ca_path else None]. *)
Definition verify_arg (client : GoCert) : option string :=
  match ca_path client with
  | Some p => if truthy (PyStr p) then Some p else None
  | None => None
  end.

(** [{"username": username, "password": password}]. *)
Definition credentials (username password : string) : pyobj :=
  PyDict [("username", PyStr username); ("password", PyStr password)].

(** [{"Authorization": f"Bearer {token}"}]. *)
Definition bearer (token : string) : list (string * string) :=
  [("Authorization", "Bearer " ++ token)].

(** The requests the seven methods build. *)
Definition login_request (c : GoCert) (username password : string) : request :=
  {| method := POST; target := url c ++ "/login"; verify := verify_arg c;
     json := Some (credentials username password); headers := []; data := None |}.

Definition accounts_request (c : GoCert) (token : string) : request :=
  {| method := GET; target := url c ++ "/accounts"; verify := verify_arg c;
     json := None; headers := bearer token; data := None |}.

Definition status_request (c : GoCert) : request :=
  {| method := GET; target := url c ++ "/status"; verify := verify_arg c;
     json := None; headers := []; data := None |}.

Definition first_user_request (c : GoCert) (username password : string) : request :=
  {| method := POST; target := url c ++ "/api/" ++ API_VERSION ++ "/accounts";
     verify := verify_arg c;
     json := Some (credentials username password); headers := []; data := None |}.

Definition table_request (c : GoCert) (token : string) : request :=
  {| method := GET; target := url c ++ "/api/" ++ API_VERSION ++ "/certificate_requests";
     verify := verify_arg c;
     json := None; headers := bearer token; data := None |}.

Definition csr_request (c : GoCert) (csr token : string) : request :=
  {| method := POST; target := url c ++ "/api/" ++ API_VERSION ++ "/certificate_requests";
     verify := verify_arg c;
     json := None; headers := bearer token; data := Some csr |}.

Section Client.

(** The network: the outcome of a call, given the requests sent before
    it and the request itself. *)
Variable send : list request -> request -> outcome.

(** The builtin [int] on a [str]: the integer it denotes, or [None] when
    [int] raises [ValueError]. *)
Variable int_of_str : string -> option Z.

(** [requests.get(...)] and [requests.post(...)]. *)
Definition requests_call {R} (rq : request) : M R Response :=
  fun m =>
    let w := globals m in
    let m' := {| globals := with_sent w rq; req := req m |} in
    match send (sent w) rq with
    | Failed f => (Raise (RequestFailed f), m')
    | Threw x => (Raise (stray_exn x), m')
    | Responded r => (Ok r, m')
    end.

(** The builtin [int]. *)
Definition py_int {R} (v : pyobj) : M R Z :=
  match v with
  | PyBool b => ret (if b then 1 else 0)
  | PyInt n => ret n
  | PyFloat (S754_zero _) => ret 0
  | PyFloat (S754_finite s m e) => ret (float_trunc s m e)
  | PyFloat (S754_infinity _) => raise OverflowError
  | PyFloat S754_nan => raise ValueError
  | PyStr s =>
      match int_of_str s with
      | Some n => ret n
      | None => raise ValueError
      end
  | PyNone | PyList _ | PyDict _ => raise TypeError
  end.

(** [GoCert.login]. *)
Definition login (username password : string) : world -> result (option string) * world :=
  def_ (
    try_except
      (c <- get_self ;;
       r <- requests_call (login_request c username password) ;;
       assign_req r ;;
       r <- load_req ;;
       raise_for_status r)
      (r <- load_req ;;
       logger_log ERROR "couldn't log in: code %s, %s" [PyInt (status_code r); PyStr (text r)] ;;
       return_ None) ;;
    logger_log INFO "logged in to GoCert successfully" [] ;;
    r <- load_req ;;
    return_ (Some (text r))).

(** [GoCert.token_is_valid]. *)
Definition token_is_valid (token : string) : world -> result bool * world :=
  def_ (
    try_except
      (c <- get_self ;;
       r <- requests_call (accounts_request c token) ;;
       assign_req r ;;
       r <- load_req ;;
       raise_for_status r)
      (return_ false) ;;
    return_ true).

(** [GoCert.is_api_available]. *)
Definition is_api_available : world -> result bool * world :=
  def_ (
    try_except
      (c <- get_self ;;
       r <- requests_call (status_request c) ;;
       assign_req r ;;
       r <- load_req ;;
       raise_for_status r)
      (return_ false) ;;
    return_ true).

(** [GoCert.is_initialized].  The value returned is whatever the body
    holds under ["initialized"]. *)
Definition is_initialized : world -> result pyobj * world :=
  def_ (
    try_except
      (c <- get_self ;;
       r <- requests_call (status_request c) ;;
       assign_req r ;;
       r <- load_req ;;
       raise_for_status r)
      (return_ (PyBool false)) ;;
    r <- load_req ;;
    body <- response_json r ;;
    v <- py_get body "initialized" (PyBool false) ;;
    return_ v).

(** [GoCert.create_first_user]. *)
Definition create_first_user (username password : string) : world -> result (option Z) * world :=
  def_ (
    try_except
      (c <- get_self ;;
       r <- requests_call (first_user_request c username password) ;;
       assign_req r ;;
       r <- load_req ;;
       raise_for_status r)
      (r <- load_req ;;
       logger_log WARNING "couldn't create first user: code %s, %s"
         [PyInt (status_code r); PyStr (text r)] ;;
       return_ None) ;;
    logger_log INFO "created the first user in GoCert." [] ;;
    r <- load_req ;;
    body <- response_json r ;;
    id <- py_get body "id" PyNone ;;
    if truthy id then n <- py_int id ;; return_ (Some n) else return_ None).

(** [CertificateRequest(csr.get("id"), csr.get("csr"), csr.get("certificate"))]. *)
Definition row_of {R} (csr : pyobj) : M R CertificateRequest :=
  i <- py_get csr "id" PyNone ;;
  c <- py_get csr "csr" PyNone ;;
  cert <- py_get csr "certificate" PyNone ;;
  ret (mkCertificateRequest i c cert).

(** [GoCert.get_certificate_requests_table]. *)
Definition get_certificate_requests_table (token : string)
  : world -> result (option CertificateRequests) * world :=
  def_ (
    try_except
      (c <- get_self ;;
       r <- requests_call (table_request c token) ;;
       assign_req r ;;
       r <- load_req ;;
       raise_for_status r)
      (r <- load_req ;;
       logger_log WARNING "couldn't retrieve certificate requests table: code %s, %s"
         [PyInt (status_code r); PyStr (text r)] ;;
       return_ None) ;;
    r <- load_req ;;
    table <- response_json r ;;
    rs <- (if truthy table
           then elements <- py_iter table ;; comprehension row_of elements
           else ret []) ;;
    return_ (Some (mkCertificateRequests rs))).

(** [GoCert.post_csr]. *)
Definition post_csr (csr token : string) : world -> result unit * world :=
  def_none (
    try_except
      (c <- get_self ;;
       r <- requests_call (csr_request c csr token) ;;
       assign_req r ;;
       r <- load_req ;;
       raise_for_status r)
      (r <- load_req ;;
       logger_log ERROR "couldn't post new certificate requests: code %s, %s"
         [PyInt (status_code r); PyStr (text r)])).

End Client.


(** ** The client as a whole *)

(** A call of one of the seven methods, with its arguments. *)
Inductive operation : Type :=
| Login (username password : string)
| TokenIsValid (token : string)
| IsApiAvailable
| IsInitialized
| CreateFirstUser (username password : string)
| GetCertificateRequestsTable (token : string)
| PostCsr (csr token : string).

(** The world a call leaves behind, whatever it returned or raised. *)
Definition exec (send : list request -> request -> outcome)
    (int_of_str : string -> option Z) (o : operation) (w : world) : world :=
  match o with
  | Login u p => snd (login send u p w)
  | TokenIsValid t => snd (token_is_valid send t w)
  | IsApiAvailable => snd (is_api_available send w)
  | IsInitialized => snd (is_initialized send w)
  | CreateFirstUser u p => snd (create_first_user send int_of_str u p w)
  | GetCertificateRequestsTable t => snd (get_certificate_requests_table send t w)
  | PostCsr c t => snd (post_csr send c t w)
  end.

(** Whether a call raised, whatever the type of its result. *)
Definition raised {R} (r : result R) : option exn :=
  match r with
  | Returns _ => None
  | Raises e => Some e
  end.

(** The exception a call of [o] lets out, if any. *)
Definition escapes (send : list request -> request -> outcome)
    (int_of_str : string -> option Z) (o : operation) (w : world) : option exn :=
  match o with
  | Login u p => raised (fst (login send u p w))
  | TokenIsValid t => raised (fst (token_is_valid send t w))
  | IsApiAvailable => raised (fst (is_api_available send w))
  | IsInitialized => raised (fst (is_initialized send w))
  | CreateFirstUser u p => raised (fst (create_first_user send int_of_str u p w))
  | GetCertificateRequestsTable t => raised (fst (get_certificate_requests_table send t w))
  | PostCsr c t => raised (fst (post_csr send c t w))
  end.

(** The request a call of [o] on the client [c] builds. *)
Definition request_of (c : GoCert) (o : operation) : request :=
  match o with
  | Login u p => login_request c u p
  | TokenIsValid t => accounts_request c t
  | IsApiAvailable | IsInitialized => status_request c
  | CreateFirstUser u p => first_user_request c u p
  | GetCertificateRequestsTable t => table_request c t
  | PostCsr s t => csr_request c s t
  end.

(** The path of the endpoint each method addresses. *)
Definition endpoint (o : operation) : string :=
  match o with
  | Login _ _ => "/login"
  | TokenIsValid _ => "/accounts"
  | IsApiAvailable | IsInitialized => "/status"
  | CreateFirstUser _ _ => "/api/v1/accounts"
  | GetCertificateRequestsTable _ | PostCsr _ _ => "/api/v1/certificate_requests"
  end.

(** A sequence of calls on one client, first call first. *)
Definition exec_all (send : list request -> request -> outcome)
    (int_of_str : string -> option Z) (ops : list operation) (w : world) : world :=
  fold_left (fun w o => exec send int_of_str o w) ops w.

(** ** Vocabulary of the statements *)

(** The log records of the failure branches. *)
Definition failure_record (lvl : level) (fmt : string) (r : Response) : log_record :=
  {| levelname := lvl; msg := fmt; args := [PyInt (status_code r); PyStr (text r)] |}.

(** The fields of an element of the table when it is an object with an
    integer ["id"], a string ["csr"] and a string ["certificate"]. *)
Definition row_fields (o : pyobj) : option (Z * string * string) :=
  match o with
  | PyDict items =>
      match dict_lookup items "id", dict_lookup items "csr", dict_lookup items "certificate" with
      | Some (PyInt n), Some (PyStr c), Some (PyStr cert) => Some (n, c, cert)
      | _, _, _ => None
      end
  | _ => None
  end.

(** The record the comprehension builds from an object. *)
Definition record_of (o : pyobj) : CertificateRequest :=
  match o with
  | PyDict items =>
      mkCertificateRequest (dict_get items "id" PyNone) (dict_get items "csr" PyNone)
        (dict_get items "certificate" PyNone)
  | _ => mkCertificateRequest PyNone PyNone PyNone
  end.

Definition is_dict (o : pyobj) : bool :=
  match o with
  | PyDict _ => true
  | _ => false
  end.

(** The rows a comprehension over [xs] gives: every element must have the
    method [get]. *)
Definition rows_from (xs : list pyobj) : result (list CertificateRequest) :=
  if forallb is_dict xs then Returns (map record_of xs) else Raises AttributeError.

(** The rows built from the decoded body, as a pure function of it. *)
Definition table_rows (table : pyobj) : result (list CertificateRequest) :=
  if truthy table then
    match table with
    | PyList xs => rows_from xs
    | PyDict items => rows_from (map (fun kv => PyStr (fst kv)) items)
    | PyStr s => rows_from (str_chars s)
    | PyNone | PyBool _ | PyInt _ | PyFloat _ => Raises TypeError
    end
  else Returns [].

(** [int(v)] as a pure function of [v]. *)
Definition int_result (int_of_str : string -> option Z) (v : pyobj) : result Z :=
  match v with
  | PyBool b => Returns (if b then 1 else 0)
  | PyInt n => Returns n
  | PyFloat (S754_zero _) => Returns 0
  | PyFloat (S754_finite s m e) => Returns (float_trunc s m e)
  | PyFloat (S754_infinity _) => Raises OverflowError
  | PyFloat S754_nan => Raises ValueError
  | PyStr s =>
      match int_of_str s with
      | Some n => Returns n
      | None => Raises ValueError
      end
  | PyNone | PyList _ | PyDict _ => Raises TypeError
  end.

(** What [create_first_user] makes of the decoded body of a response it
    took for a success. *)
Definition account_id (int_of_str : string -> option Z) (body : pyobj) : result (option Z) :=
  match body with
  | PyDict items =>
      let v := dict_get items "id" PyNone in
      if truthy v then
        match int_result int_of_str v with
        | Returns n => Returns (Some n)
        | Raises e => Raises e
        end
      else Returns None
  | _ => Raises AttributeError
  end.

(** ** Concrete clients, networks and responses *)

Definition client0 : GoCert := init "https://gocert:8443" (Some "/etc/gocert/ca.pem").

Definition world0 : world := new_world client0.

(** A network that answers every request with [r]. *)
Definition answering (r : Response) : list request -> request -> outcome :=
  fun _ _ => Responded r.

(** A network on which every call fails with [f]. *)
Definition failing (f : failure) : list request -> request -> outcome :=
  fun _ _ => Failed f.

(** An [int] for the examples: it reads no string. *)
Definition no_int_of_str : string -> option Z := fun _ => None.

Definition dquote : string := String (Ascii.ascii_of_nat 34) EmptyString.

(** [200 OK] with a token as body. *)
Definition ok_token : Response :=
  {| status_code := 200; text := "eyJhbGciOiJIUzI1NiJ9.e30.c2ln"; decoded := None |}.

(** [304 Not Modified]: no body. *)
Definition not_modified : Response :=
  {| status_code := 304; text := EmptyString; decoded := None |}.

(** [300 Multiple Choices] carrying a status document. *)
Definition multiple_choices : Response :=
  {| status_code := 300;
     text := "{" ++ dquote ++ "initialized" ++ dquote ++ ": true}";
     decoded := Some (PyDict [("initialized", PyBool true)]) |}.

(** [401 Unauthorized]. *)
Definition unauthorized : Response :=
  {| status_code := 401; text := "Unauthorized"; decoded := None |}.

(** [201 Created] with the id of the new account. *)
Definition created : Response :=
  {| status_code := 201;
     text := "{" ++ dquote ++ "id" ++ dquote ++ ": 1}";
     decoded := Some (PyDict [("id", PyInt 1)]) |}.

(** [200 OK] with an empty JSON array. *)
Definition empty_table : Response :=
  {| status_code := 200; text := "[]"; decoded := Some (PyList []) |}.

(** [200 OK] with a status document that has no ["initialized"] field. *)
Definition status_without_field : Response :=
  {| status_code := 200;
     text := "{" ++ dquote ++ "version" ++ dquote ++ ": 1}";
     decoded := Some (PyDict [("version", PyInt 1)]) |}.

(** [200 OK] with a table of two rows, the first one signed. *)
Definition two_rows : list pyobj :=
  [ PyDict [("id", PyInt 1); ("csr", PyStr "CSR-1"); ("certificate", PyStr "CERT-1")];
    PyDict [("id", PyInt 2); ("csr", PyStr "CSR-2"); ("certificate", PyStr EmptyString)] ].

Definition table_of_two : Response :=
  {| status_code := 200; text := "[...]"; decoded := Some (PyList two_rows) |}.

(** [200 OK] with the body [null], as a server with no rows may send. *)
Definition null_table : Response :=
  {| status_code := 200; text := "null"; decoded := Some PyNone |}.

(** [201 Created] whose body names the account but carries no id. *)
Definition created_without_id : Response :=
  {| status_code := 201;
     text := "{" ++ dquote ++ "username" ++ dquote ++ ": " ++ dquote ++ "admin" ++ dquote ++ "}";
     decoded := Some (PyDict [("username", PyStr "admin")]) |}.

(** [200 OK] with a page that is no JSON document. *)
Definition html_page : Response :=
  {| status_code := 200; text := "<html></html>"; decoded := None |}.

(** [200 OK] with a status document that says the server is initialized. *)
Definition status_initialized : Response :=
  {| status_code := 200;
     text := "{" ++ dquote ++ "initialized" ++ dquote ++ ": true}";
     decoded := Some (PyDict [("initialized", PyBool true)]) |}.

(** [200 OK] with one row that has no ["certificate"] field. *)
Definition partial_rows : list pyobj :=
  [ PyDict [("id", PyInt 3); ("csr", PyStr "CSR-3")] ].

Definition table_of_partial : Response :=
  {| status_code := 200; text := "[...]"; decoded := Some (PyList partial_rows) |}.

(** [200 OK] with an object where an array is expected. *)
Definition error_document : Response :=
  {| status_code := 200;
     text := "{" ++ dquote ++ "error" ++ dquote ++ ": " ++ dquote ++ "busy" ++ dquote ++ "}";
     decoded := Some (PyDict [("error", PyStr "busy")]) |}.

(** [200 OK] with one row whose fields are not of the annotated types. *)
Definition untyped_rows : list pyobj :=
  [ PyDict [("id", PyStr "7"); ("csr", PyInt 5); ("certificate", PyNone)] ].

Definition table_of_untyped : Response :=
  {| status_code := 200; text := "[...]"; decoded := Some (PyList untyped_rows) |}.

Definition newline : string := String (Ascii.ascii_of_nat 10) EmptyString.

Fixpoint ends_with_newline (s : string) : bool :=
  match s with
  | EmptyString => false
  | String c rest =>
      match rest with
      | EmptyString => Ascii.eqb c (Ascii.ascii_of_nat 10)
      | String _ _ => ends_with_newline rest
      end
  end.

(** A server that answers everything with [200 OK], reached through an
    HTTP layer that, as [http.client] does, refuses a header value ending
    in a newline with [ValueError]. *)
Definition checking_headers : list request -> request -> outcome :=
  fun _ rq =>
    if existsb (fun h => ends_with_newline (snd h)) (headers rq)
    then Threw InvalidHeaderValue
    else Responded ok_token.

(** A network on which every call ends in the stray exception [x]. *)
Definition throwing (x : stray) : list request -> request -> outcome :=
  fun _ _ => Threw x.

(** ** Proof automation *)

Ltac run_method :=
  unfold login, token_is_valid, is_api_available, is_initialized, create_first_user,
    get_certificate_requests_table, post_csr, def_, def_none, try_except, bind,
    get_self, requests_call, assign_req, load_req, raise_for_status, logger_log,
    return_, ret, raise; cbn.

Ltac by_outcome send :=
  run_method;
  match goal with
  | |- context [send ?h ?rq] =>
      destruct (send h rq) as [? | [] | ?]; cbn; try reflexivity
  end;
  try match goal with
      | |- context [is_error_status ?s] => destruct (is_error_status s); cbn; reflexivity
      end.

(** ** Statuses *)

Lemma is_error_status_iff (s : Z) : is_error_status s = true <-> 400 <= s < 600.
Proof. unfold is_error_status. lia. Qed.

Lemma is_error_status_false_iff (s : Z) : is_error_status s = false <-> ~ (400 <= s < 600).
Proof. unfold is_error_status. lia. Qed.

Lemma is_2xx_not_error (s : Z) : is_2xx s = true -> is_error_status s = false.
Proof. unfold is_2xx, is_error_status. lia. Qed.

(** ** What each method does, outcome by outcome *)

Lemma login_run send u p w :
  login send u p w =
  let rq := login_request (self w) u p in
  match send (sent w) rq with
  | Failed _ => (Raises UnboundLocalError, with_sent w rq)
  | Threw x => (Raises (stray_exn x), with_sent w rq)
  | Responded r =>
      if is_error_status (status_code r)
      then (Returns None,
            with_log (with_sent w rq) (failure_record ERROR "couldn't log in: code %s, %s" r))
      else (Returns (Some (text r)),
            with_log (with_sent w rq)
              {| levelname := INFO; msg := "logged in to GoCert successfully"; args := [] |})
  end.
Proof. by_outcome send. Qed.

Lemma token_is_valid_run send t w :
  token_is_valid send t w =
  let rq := accounts_request (self w) t in
  match send (sent w) rq with
  | Failed _ => (Returns false, with_sent w rq)
  | Threw x => (Raises (stray_exn x), with_sent w rq)
  | Responded r => (Returns (negb (is_error_status (status_code r))), with_sent w rq)
  end.
Proof. by_outcome send. Qed.

Lemma is_api_available_run send w :
  is_api_available send w =
  let rq := status_request (self w) in
  match send (sent w) rq with
  | Failed _ => (Returns false, with_sent w rq)
  | Threw x => (Raises (stray_exn x), with_sent w rq)
  | Responded r => (Returns (negb (is_error_status (status_code r))), with_sent w rq)
  end.
Proof. by_outcome send. Qed.

Lemma is_initialized_run send w :
  is_initialized send w =
  let rq := status_request (self w) in
  match send (sent w) rq with
  | Failed _ => (Returns (PyBool false), with_sent w rq)
  | Threw x => (Raises (stray_exn x), with_sent w rq)
  | Responded r =>
      if is_error_status (status_code r) then (Returns (PyBool false), with_sent w rq)
      else match decoded r with
           | None => (Raises JSONDecodeError, with_sent w rq)
           | Some (PyDict items) =>
               (Returns (dict_get items "initialized" (PyBool false)), with_sent w rq)
           | Some _ => (Raises AttributeError, with_sent w rq)
           end
  end.
Proof.
  run_method.
  destruct (send (sent w) (status_request (self w))) as [f | [] | r]; cbn;
    [reflexivity | reflexivity | reflexivity |].
  destruct (is_error_status (status_code r)); cbn; [reflexivity |].
  unfold response_json.
  destruct (decoded r) as [[] |]; reflexivity.
Qed.

Lemma post_csr_run send c t w :
  post_csr send c t w =
  let rq := csr_request (self w) c t in
  match send (sent w) rq with
  | Failed _ => (Raises UnboundLocalError, with_sent w rq)
  | Threw x => (Raises (stray_exn x), with_sent w rq)
  | Responded r =>
      (Returns tt,
       if is_error_status (status_code r)
       then with_log (with_sent w rq)
              (failure_record ERROR "couldn't post new certificate requests: code %s, %s" r)
       else with_sent w rq)
  end.
Proof. by_outcome send. Qed.

(** The comprehension of [get_certificate_requests_table] touches neither
    the world nor [req]. *)
Lemma row_of_run {R} (o : pyobj) (m : machine) :
  @row_of R o m = (if is_dict o then Ok (record_of o) else Raise AttributeError, m).
Proof. destruct o; reflexivity. Qed.

Lemma comprehension_run {R} (xs : list pyobj) (m : machine) :
  @comprehension R _ _ row_of xs m =
  (match rows_from xs with
   | Returns rs => Ok rs
   | Raises e => Raise e
   end, m).
Proof.
  unfold rows_from.
  induction xs as [| x xs IH]; [reflexivity |].
  cbn [comprehension forallb map]. unfold bind at 1.
  rewrite row_of_run.
  destruct (is_dict x); cbn [andb]; [| reflexivity].
  unfold bind at 1. rewrite IH.
  destruct (forallb is_dict xs); reflexivity.
Qed.

Lemma rows_run {R} (table : pyobj) (m : machine) :
  (if truthy table
   then bind (@py_iter R table) (fun elements => comprehension row_of elements)
   else ret []) m =
  (match table_rows table with
   | Returns rs => Ok rs
   | Raises e => Raise e
   end, m).
Proof.
  unfold table_rows.
  destruct (truthy table); [| reflexivity].
  destruct table; unfold bind, py_iter, raise, ret; try reflexivity; apply comprehension_run.
Qed.

Lemma get_certificate_requests_table_run send t w :
  get_certificate_requests_table send t w =
  let rq := table_request (self w) t in
  match send (sent w) rq with
  | Failed _ => (Raises UnboundLocalError, with_sent w rq)
  | Threw x => (Raises (stray_exn x), with_sent w rq)
  | Responded r =>
      if is_error_status (status_code r)
      then (Returns None,
            with_log (with_sent w rq)
              (failure_record WARNING
                 "couldn't retrieve certificate requests table: code %s, %s" r))
      else match decoded r with
           | None => (Raises JSONDecodeError, with_sent w rq)
           | Some table =>
               (match table_rows table with
                | Returns rs => Returns (Some (mkCertificateRequests rs))
                | Raises e => Raises e
                end, with_sent w rq)
           end
  end.
Proof.
  run_method.
  destruct (send (sent w) (table_request (self w) t)) as [f | [] | r]; cbn;
    [reflexivity | reflexivity | reflexivity |].
  destruct (is_error_status (status_code r)); cbn; [reflexivity |].
  unfold response_json.
  destruct (decoded r) as [table |]; cbn; [| reflexivity].
  unfold table_rows.
  destruct (truthy table); [| reflexivity].
  destruct table; unfold py_iter, raise, ret; cbn; try reflexivity;
    rewrite comprehension_run; destruct (rows_from _); reflexivity.
Qed.

Lemma py_int_run {R} int_of_str (v : pyobj) (m : machine) :
  @py_int int_of_str R v m =
  (match int_result int_of_str v with
   | Returns n => Ok n
   | Raises e => Raise e
   end, m).
Proof.
  destruct v as [| | | [] | s | |]; try reflexivity.
  cbn. destruct (int_of_str s); reflexivity.
Qed.

Lemma create_first_user_run send int_of_str u p w :
  create_first_user send int_of_str u p w =
  let rq := first_user_request (self w) u p in
  match send (sent w) rq with
  | Failed _ => (Raises UnboundLocalError, with_sent w rq)
  | Threw x => (Raises (stray_exn x), with_sent w rq)
  | Responded r =>
      if is_error_status (status_code r)
      then (Returns None,
            with_log (with_sent w rq)
              (failure_record WARNING "couldn't create first user: code %s, %s" r))
      else
        let w' := with_log (with_sent w rq)
                    {| levelname := INFO; msg := "created the first user in GoCert.";
                       args := [] |} in
        match decoded r with
        | None => (Raises JSONDecodeError, w')
        | Some body => (account_id int_of_str body, w')
        end
  end.
Proof.
  run_method.
  destruct (send (sent w) (first_user_request (self w) u p)) as [f | [] | r]; cbn;
    [reflexivity | reflexivity | reflexivity |].
  destruct (is_error_status (status_code r)); cbn; [reflexivity |].
  unfold response_json.
  destruct (decoded r) as [body |]; cbn; [| reflexivity].
  destruct body; try reflexivity.
  unfold py_get, ret, account_id.
  destruct (truthy (dict_get items "id" PyNone)); [| reflexivity].
  rewrite py_int_run.
  destruct (int_result int_of_str (dict_get items "id" PyNone)); reflexivity.
Qed.

(** A call sends exactly the request built from the client, and leaves
    the client as it was. *)
Lemma exec_frame send int_of_str (o : operation) (w : world) :
  self (exec send int_of_str o w) = self w /\
  sent (exec send int_of_str o w) = (sent w ++ [request_of (self w) o])%list.
Proof.
  destruct o; cbn [exec request_of].
  - rewrite login_run. cbn zeta.
    destruct (send _ _) as [f | x | r]; [| | destruct (is_error_status _)]; split; reflexivity.
  - rewrite token_is_valid_run. cbn zeta. destruct (send _ _); split; reflexivity.
  - rewrite is_api_available_run. cbn zeta. destruct (send _ _); split; reflexivity.
  - rewrite is_initialized_run. cbn zeta.
    destruct (send _ _) as [f | x | r]; [| | destruct (is_error_status _)];
      [| | | destruct (decoded r) as [[] |]]; split; reflexivity.
  - rewrite create_first_user_run. cbn zeta.
    destruct (send _ _) as [f | x | r]; [| | destruct (is_error_status _)];
      [| | | destruct (decoded r)]; split; reflexivity.
  - rewrite get_certificate_requests_table_run. cbn zeta.
    destruct (send _ _) as [f | x | r]; [| | destruct (is_error_status _)];
      [| | | destruct (decoded r)]; split; reflexivity.
  - rewrite post_csr_run. cbn zeta.
    destruct (send _ _) as [f | x | r]; [| | destruct (is_error_status _)]; split; reflexivity.
Qed.

(** ** Failures of the HTTP call *)

(** C1 (evaluation at the failing inputs).  When the call of [requests]
    itself fails (connection, TLS, timeout or OS error), the handlers of
    [login], [create_first_user], [get_certificate_requests_table] and
    [post_csr] read [req], which was never bound, so [UnboundLocalError]
    leaves the method; [token_is_valid], [is_api_available] and
    [is_initialized] let nothing out. *)
Theorem transport_failure_escapes (f : failure) (int_of_str : string -> option Z)
    (o : operation) (w : world) :
  escapes (failing f) int_of_str o w =
  match o with
  | Login _ _ | CreateFirstUser _ _ | GetCertificateRequestsTable _ | PostCsr _ _ =>
      Some UnboundLocalError
  | TokenIsValid _ | IsApiAvailable | IsInitialized => None
  end.
Proof.
  destruct o; cbn [escapes].
  - rewrite login_run. reflexivity.
  - rewrite token_is_valid_run. reflexivity.
  - rewrite is_api_available_run. reflexivity.
  - rewrite is_initialized_run. reflexivity.
  - rewrite create_first_user_run. reflexivity.
  - rewrite get_certificate_requests_table_run. reflexivity.
  - rewrite post_csr_run. reflexivity.
Qed.

Example login_connection_refused :
  login (failing ConnectionError) "admin" "Secret123" world0 =
  (Raises UnboundLocalError,
   with_sent world0 (login_request client0 "admin" "Secret123")).
Proof. reflexivity. Qed.

Example is_initialized_connection_refused :
  fst (is_initialized (failing ConnectionError) world0) = Returns (PyBool false).
Proof. reflexivity. Qed.

(** X1.  On a response with a client or server error status (400 to 599)
    no method lets an exception out: [raise_for_status] raises
    [HTTPError], the handler catches it and, with a response in hand, can
    read [req]. *)
Lemma error_status_is_caught send int_of_str (o : operation) (w : world) (r : Response) :
  send (sent w) (request_of (self w) o) = Responded r ->
  400 <= status_code r < 600 ->
  escapes send int_of_str o w = None.
Proof.
  intros Hsend Hstatus. apply is_error_status_iff in Hstatus.
  destruct o; cbn [escapes request_of] in *.
  - rewrite login_run. cbn zeta. rewrite Hsend, Hstatus. reflexivity.
  - rewrite token_is_valid_run. cbn zeta. rewrite Hsend. reflexivity.
  - rewrite is_api_available_run. cbn zeta. rewrite Hsend. reflexivity.
  - rewrite is_initialized_run. cbn zeta. rewrite Hsend, Hstatus. reflexivity.
  - rewrite create_first_user_run. cbn zeta. rewrite Hsend, Hstatus. reflexivity.
  - rewrite get_certificate_requests_table_run. cbn zeta. rewrite Hsend, Hstatus. reflexivity.
  - rewrite post_csr_run. cbn zeta. rewrite Hsend. reflexivity.
Qed.

(** ** [login] *)

(** C2 (as amended).  On a response, [login] returns the body text when the
    status is 200, returns [None] when the status is a client or server
    error (400 to 599), and returns the body text on every other status. *)
Theorem login_by_status send (u p : string) (w : world) (r : Response) :
  send (sent w) (login_request (self w) u p) = Responded r ->
  (status_code r = 200 -> fst (login send u p w) = Returns (Some (text r))) /\
  (400 <= status_code r < 600 -> fst (login send u p w) = Returns None) /\
  (~ 400 <= status_code r < 600 -> fst (login send u p w) = Returns (Some (text r))).
Proof.
  intros Hsend. rewrite login_run. cbn zeta. rewrite Hsend.
  repeat split; intros Hstatus.
  - assert (E : is_error_status (status_code r) = false)
      by (apply is_error_status_false_iff; lia).
    rewrite E. reflexivity.
  - apply is_error_status_iff in Hstatus. rewrite Hstatus. reflexivity.
  - apply is_error_status_false_iff in Hstatus. rewrite Hstatus. reflexivity.
Qed.

Lemma login_by_status_witness :
  fst (login (answering ok_token) "admin" "Secret123" world0) = Returns (Some (text ok_token)) /\
  fst (login (answering unauthorized) "admin" "Secret123" world0) = Returns None.
Proof.
  split.
  - exact (proj1 (login_by_status (answering ok_token) "admin" "Secret123" world0 ok_token
                    eq_refl) eq_refl).
  - apply (login_by_status (answering unauthorized) "admin" "Secret123" world0 unauthorized
             eq_refl).
    cbn. lia.
Defined.

(** C2 (counterexample).  [304 Not Modified] is not a 2xx status, yet
    [login] returns the body text of the response, not [None]. *)
Lemma login_not_modified_returns_text :
  is_2xx (status_code not_modified) = false /\
  fst (login (answering not_modified) "admin" "Secret123" world0)
  = Returns (Some (text not_modified)).
Proof. split; reflexivity. Qed.

(** ** [token_is_valid] and [is_api_available] *)

(** C8 (as amended).  [token_is_valid] returns [True] exactly when the
    request got a response whose status is not a client or server error;
    it returns [False] exactly when the call failed or the status is
    in 400 to 599. *)
Theorem token_is_valid_iff send (token : string) (w : world) :
  (fst (token_is_valid send token w) = Returns true <->
   exists r, send (sent w) (accounts_request (self w) token) = Responded r /\
             ~ 400 <= status_code r < 600) /\
  (fst (token_is_valid send token w) = Returns false <->
   (exists f, send (sent w) (accounts_request (self w) token) = Failed f) \/
   (exists r, send (sent w) (accounts_request (self w) token) = Responded r /\
              400 <= status_code r < 600)).
Proof.
  rewrite token_is_valid_run. cbn zeta.
  destruct (send (sent w) (accounts_request (self w) token)) as [f | x | r]; cbn [fst].
  - split; split.
    + discriminate.
    + intros (r & Hr & _). discriminate.
    + intros _. left. exists f. reflexivity.
    + reflexivity.
  - split; split.
    + discriminate.
    + intros (r & Hr & _). discriminate.
    + discriminate.
    + intros [(f & Hf) | (r & Hr & _)]; discriminate.
  - destruct (is_error_status (status_code r)) eqn:E; cbn [negb].
    + apply is_error_status_iff in E. split; split.
      * discriminate.
      * intros (r' & Hr & Hn). injection Hr as <-. contradiction.
      * intros _. right. exists r. split; [reflexivity | assumption].
      * reflexivity.
    + apply is_error_status_false_iff in E. split; split.
      * intros _. exists r. split; [reflexivity | assumption].
      * reflexivity.
      * discriminate.
      * intros [(f & Hf) | (r' & Hr & Hs)]; [discriminate |].
        injection Hr as <-. contradiction.
Qed.

(** C8 (counterexample).  On [304 Not Modified], which is not a 2xx
    status, [token_is_valid] returns [True]. *)
Lemma token_is_valid_on_not_modified :
  is_2xx (status_code not_modified) = false /\
  fst (token_is_valid (answering not_modified) "eyJhbGciOiJIUzI1NiJ9" world0) = Returns true.
Proof. split; reflexivity. Qed.

(** C10 (as amended).  [token_is_valid] and [is_api_available] return a
    boolean, and raise nothing, on every outcome of the call that is a
    response or an exception of the classes they catch: [False] when the
    call failed, whichever the failure, since neither handler reads
    [req], and otherwise whether the status is no error status.  An
    exception of the call outside those classes leaves the method. *)
Theorem boolean_checks_by_outcome send (token : string) (w : world) :
  fst (token_is_valid send token w) =
    match send (sent w) (accounts_request (self w) token) with
    | Failed _ => Returns false
    | Responded r => Returns (negb (is_error_status (status_code r)))
    | Threw x => Raises (stray_exn x)
    end /\
  fst (is_api_available send w) =
    match send (sent w) (status_request (self w)) with
    | Failed _ => Returns false
    | Responded r => Returns (negb (is_error_status (status_code r)))
    | Threw x => Raises (stray_exn x)
    end.
Proof.
  rewrite token_is_valid_run, is_api_available_run. cbn zeta.
  split; destruct (send _ _); reflexivity.
Qed.

(** C10 (counterexample).  A token that ends in a newline makes the call
    raise [ValueError], which is neither a [RequestException] nor an
    [OSError]: [token_is_valid] raises it instead of returning a
    boolean.  [is_api_available] likewise lets out the
    [UnicodeDecodeError] of an undecodable redirect. *)
Lemma boolean_checks_let_stray_exceptions_out :
  fst (token_is_valid checking_headers ("eyJhbGciOiJIUzI1NiJ9" ++ newline) world0)
  = Raises ValueError /\
  fst (is_api_available (throwing UndecodableLocation) world0) = Raises UnicodeDecodeError.
Proof. split; reflexivity. Qed.

(** ** [is_initialized] *)

(** C7 (as amended).  [is_initialized] returns [False] when the call
    failed, when the status is a client or server error (400 to 599), and
    when the response was taken for a success and its body is an object
    without the field ["initialized"]. *)
Theorem is_initialized_false send (w : world) :
  (forall f, send (sent w) (status_request (self w)) = Failed f ->
     fst (is_initialized send w) = Returns (PyBool false)) /\
  (forall r, send (sent w) (status_request (self w)) = Responded r ->
     400 <= status_code r < 600 ->
     fst (is_initialized send w) = Returns (PyBool false)) /\
  (forall r items, send (sent w) (status_request (self w)) = Responded r ->
     decoded r = Some (PyDict items) ->
     dict_lookup items "initialized" = None ->
     fst (is_initialized send w) = Returns (PyBool false)).
Proof.
  rewrite is_initialized_run. cbn zeta. repeat split.
  - intros f Hsend. rewrite Hsend. reflexivity.
  - intros r Hsend Hstatus. apply is_error_status_iff in Hstatus.
    rewrite Hsend, Hstatus. reflexivity.
  - intros r items Hsend Hbody Hfield. rewrite Hsend, Hbody.
    unfold dict_get. rewrite Hfield.
    destruct (is_error_status (status_code r)); reflexivity.
Qed.

Lemma is_initialized_false_witness :
  fst (is_initialized (failing SSLError) world0) = Returns (PyBool false) /\
  fst (is_initialized (answering unauthorized) world0) = Returns (PyBool false) /\
  fst (is_initialized (answering status_without_field) world0) = Returns (PyBool false).
Proof.
  split; [| split].
  - exact (proj1 (is_initialized_false (failing SSLError) world0) SSLError eq_refl).
  - apply (proj1 (proj2 (is_initialized_false (answering unauthorized) world0))
             unauthorized eq_refl).
    cbn. lia.
  - exact (proj2 (proj2 (is_initialized_false (answering status_without_field) world0))
             status_without_field [("version", PyInt 1)] eq_refl eq_refl eq_refl).
Defined.

(** C7 (counterexample).  [300 Multiple Choices] is not a 2xx status; the
    body is decoded all the same, and [is_initialized] returns the [True]
    it holds. *)
Lemma is_initialized_on_multiple_choices :
  is_2xx (status_code multiple_choices) = false /\
  fst (is_initialized (answering multiple_choices) world0) = Returns (PyBool true).
Proof. split; reflexivity. Qed.

(** ** [create_first_user] *)

(** C3 (evaluation at the failing input).  When the call fails without a
    response, [create_first_user] does not return [None]: its handler
    reads the unbound [req] and [UnboundLocalError] leaves the method,
    before anything is logged. *)
Theorem create_first_user_unreachable (f : failure) (int_of_str : string -> option Z)
    (u p : string) (w : world) :
  create_first_user (failing f) int_of_str u p w =
  (Raises UnboundLocalError, with_sent w (first_user_request (self w) u p)).
Proof. rewrite create_first_user_run. reflexivity. Qed.

Example create_first_user_connection_refused :
  fst (create_first_user (failing ConnectionError) no_int_of_str "admin" "Secret123" world0)
  = Raises UnboundLocalError.
Proof. reflexivity. Qed.

Example create_first_user_created :
  fst (create_first_user (answering created) no_int_of_str "admin" "Secret123" world0)
  = Returns (Some 1).
Proof. reflexivity. Qed.

Example create_first_user_unauthorized :
  fst (create_first_user (answering unauthorized) no_int_of_str "admin" "Secret123" world0)
  = Returns None.
Proof. reflexivity. Qed.

(** X11.  With a response in hand [create_first_user] does as its
    docstring says: it returns the id of the created account when the
    status is 2xx and the body is an object with a non-zero integer
    ["id"], and [None] on a client or server error status. *)
Lemma create_first_user_responded send int_of_str (u p : string) (w : world) (r : Response) :
  send (sent w) (first_user_request (self w) u p) = Responded r ->
  (forall items n,
     is_2xx (status_code r) = true ->
     decoded r = Some (PyDict items) ->
     dict_lookup items "id" = Some (PyInt n) ->
     n <> 0 ->
     fst (create_first_user send int_of_str u p w) = Returns (Some n)) /\
  (400 <= status_code r < 600 ->
   fst (create_first_user send int_of_str u p w) = Returns None).
Proof.
  intros Hsend. rewrite create_first_user_run. cbn zeta. rewrite Hsend. split.
  - intros items n Hok Hbody Hid Hn.
    rewrite (is_2xx_not_error _ Hok), Hbody.
    unfold account_id, dict_get. rewrite Hid. cbn.
    destruct (n =? 0) eqn:E; [lia | reflexivity].
  - intros Hstatus. apply is_error_status_iff in Hstatus. rewrite Hstatus. reflexivity.
Qed.

(** ** [get_certificate_requests_table] *)

Lemma row_fields_record (o : pyobj) (n : Z) (c cert : string) :
  row_fields o = Some (n, c, cert) ->
  is_dict o = true /\ record_of o = mkCertificateRequest (PyInt n) (PyStr c) (PyStr cert).
Proof.
  destruct o as [| | | | | | items]; try discriminate.
  unfold row_fields, record_of, dict_get.
  destruct (dict_lookup items "id") as [[] |]; try discriminate.
  destruct (dict_lookup items "csr") as [[] |]; try discriminate.
  destruct (dict_lookup items "certificate") as [[] |]; try discriminate.
  intros [= -> -> ->]. split; reflexivity.
Qed.

(** An array of objects gives one record per object, in order. *)
Lemma table_rows_of_objects (xs : list pyobj) :
  forallb is_dict xs = true ->
  table_rows (PyList xs) = Returns (map record_of xs).
Proof.
  intros Hall. unfold table_rows.
  destruct xs as [| x xs]; [reflexivity |].
  cbn [truthy]. unfold rows_from. rewrite Hall. reflexivity.
Qed.

(** C4 (as amended).  On a 2xx response whose body is a JSON array of
    objects, the method returns a collection with as many rows as the
    array has elements, in the order of the array; the i-th row holds
    what the i-th element has under ["id"], ["csr"] and ["certificate"],
    [None] for a missing key, whatever the types of these values.  The
    row is an integer and two strings when the element holds an integer
    and two strings. *)
Theorem table_rows_mirror_elements send (token : string) (w : world)
    (r : Response) (table : list pyobj) :
  send (sent w) (table_request (self w) token) = Responded r ->
  is_2xx (status_code r) = true ->
  decoded r = Some (PyList table) ->
  forallb is_dict table = true ->
  exists rs,
    fst (get_certificate_requests_table send token w)
    = Returns (Some (mkCertificateRequests rs)) /\
    length rs = length table /\
    (forall i items, nth_error table i = Some (PyDict items) ->
       nth_error rs i =
       Some (mkCertificateRequest
               match dict_lookup items "id" with Some v => v | None => PyNone end
               match dict_lookup items "csr" with Some v => v | None => PyNone end
               match dict_lookup items "certificate" with Some v => v | None => PyNone end)) /\
    (forall i o n c cert, nth_error table i = Some o ->
       row_fields o = Some (n, c, cert) ->
       nth_error rs i = Some (mkCertificateRequest (PyInt n) (PyStr c) (PyStr cert))).
Proof.
  intros Hsend Hok Hbody Hdicts.
  exists (map record_of table).
  rewrite get_certificate_requests_table_run. cbn zeta.
  rewrite Hsend, (is_2xx_not_error _ Hok), Hbody, (table_rows_of_objects _ Hdicts).
  split; [reflexivity |]. split; [apply length_map |]. split.
  - intros i items Hi. rewrite nth_error_map, Hi. reflexivity.
  - intros i o n c cert Hi Hfields. rewrite nth_error_map, Hi. cbn.
    f_equal. apply (row_fields_record _ _ _ _ Hfields).
Qed.

Lemma table_rows_mirror_elements_witness :
  exists rs,
    fst (get_certificate_requests_table (answering table_of_two) "eyJhbGciOiJIUzI1NiJ9" world0)
    = Returns (Some (mkCertificateRequests rs)) /\
    length rs = length two_rows /\
    (forall i items, nth_error two_rows i = Some (PyDict items) ->
       nth_error rs i =
       Some (mkCertificateRequest
               match dict_lookup items "id" with Some v => v | None => PyNone end
               match dict_lookup items "csr" with Some v => v | None => PyNone end
               match dict_lookup items "certificate" with Some v => v | None => PyNone end)) /\
    (forall i o n c cert, nth_error two_rows i = Some o ->
       row_fields o = Some (n, c, cert) ->
       nth_error rs i = Some (mkCertificateRequest (PyInt n) (PyStr c) (PyStr cert))).
Proof.
  exact (table_rows_mirror_elements (answering table_of_two) "eyJhbGciOiJIUzI1NiJ9"
           world0 table_of_two two_rows eq_refl eq_refl eq_refl eq_refl).
Defined.

(** C4 (counterexample).  A fetch answered [200 OK] with a row whose id
    is a string, whose csr is a number and whose certificate is [null]
    succeeds, and the record holds these values: its identifier is no
    integer and its two contents are no strings. *)
Lemma table_row_types_are_not_checked :
  is_2xx (status_code table_of_untyped) = true /\
  fst (get_certificate_requests_table (answering table_of_untyped) "eyJhbGciOiJIUzI1NiJ9"
         world0)
  = Returns (Some (mkCertificateRequests
                     [mkCertificateRequest (PyStr "7") (PyInt 5) PyNone])).
Proof. split; reflexivity. Qed.

(** C6.  On a 2xx response whose body is the empty JSON array, the method
    returns a collection with no rows, not [None]. *)
Theorem empty_table_is_a_collection send (token : string) (w : world) (r : Response) :
  send (sent w) (table_request (self w) token) = Responded r ->
  is_2xx (status_code r) = true ->
  decoded r = Some (PyList []) ->
  fst (get_certificate_requests_table send token w)
  = Returns (Some (mkCertificateRequests [])).
Proof.
  intros Hsend Hok Hbody.
  rewrite get_certificate_requests_table_run. cbn zeta.
  rewrite Hsend, (is_2xx_not_error _ Hok), Hbody. reflexivity.
Qed.

Lemma empty_table_is_a_collection_witness :
  fst (get_certificate_requests_table (answering empty_table) "eyJhbGciOiJIUzI1NiJ9" world0)
  = Returns (Some (mkCertificateRequests [])).
Proof.
  exact (empty_table_is_a_collection (answering empty_table) "eyJhbGciOiJIUzI1NiJ9" world0
           empty_table eq_refl eq_refl eq_refl).
Defined.

(** X13.  On a 2xx response whose body decodes to a falsy value ([null],
    an empty object, zero, an empty string, [false]) the method returns
    a collection with no rows: the conditional of the comprehension
    tests the truth value of the body, not its type. *)
Lemma falsy_table_is_a_collection send (token : string) (w : world) (r : Response)
    (table : pyobj) :
  send (sent w) (table_request (self w) token) = Responded r ->
  is_2xx (status_code r) = true ->
  decoded r = Some table ->
  truthy table = false ->
  fst (get_certificate_requests_table send token w)
  = Returns (Some (mkCertificateRequests [])).
Proof.
  intros Hsend Hok Hbody Hfalsy.
  rewrite get_certificate_requests_table_run. cbn zeta.
  rewrite Hsend, (is_2xx_not_error _ Hok), Hbody.
  unfold table_rows. rewrite Hfalsy. reflexivity.
Qed.

(** ** [post_csr] *)



(** ** The configuration *)

Lemma exec_all_frame send int_of_str (ops : list operation) (w : world) :
  self (exec_all send int_of_str ops w) = self w /\
  sent (exec_all send int_of_str ops w) = (sent w ++ map (request_of (self w)) ops)%list.
Proof.
  revert w. induction ops as [| o ops IH]; intros w.
  - cbn. rewrite app_nil_r. split; reflexivity.
  - cbn [exec_all fold_left map].
    destruct (exec_frame send int_of_str o w) as [Hself Hsent].
    destruct (IH (exec send int_of_str o w)) as [IHself IHsent].
    unfold exec_all in *. rewrite IHself, IHsent, Hself, Hsent, <- app_assoc.
    split; reflexivity.
Qed.

(** The [verify] argument is the configured CA path itself whenever one
    is configured, and [None] when it is absent or empty. *)
Lemma verify_arg_cases (base : string) (ca : option string) :
  verify_arg (init base ca) =
  match ca with
  | Some (String a rest) => Some (String a rest)
  | Some EmptyString | None => None
  end.
Proof. destruct ca as [[] |]; reflexivity. Qed.

(** C9.  After [__init__], whatever methods are called and whatever they
    return or raise, [url] and [ca_path] keep the values given at
    construction; each call sends one request, whose target is the
    configured url followed by the path of the endpoint and whose
    [verify] argument is the configured CA path itself when it is a
    non-empty string, and [None] when no path, or an empty one, is
    configured. *)
Theorem configuration_is_immutable send int_of_str (base : string) (ca : option string)
    (ops : list operation) :
  url (self (exec_all send int_of_str ops (new_world (init base ca)))) = base /\
  ca_path (self (exec_all send int_of_str ops (new_world (init base ca)))) = ca /\
  sent (exec_all send int_of_str ops (new_world (init base ca)))
  = map (request_of (init base ca)) ops /\
  forall o,
    target (request_of (init base ca) o) = base ++ endpoint o /\
    verify (request_of (init base ca) o) =
      match ca with
      | Some (String a rest) => Some (String a rest)
      | Some EmptyString | None => None
      end.
Proof.
  destruct (exec_all_frame send int_of_str ops (new_world (init base ca))) as [Hself Hsent].
  rewrite Hself, Hsent.
  split; [reflexivity |]. split; [reflexivity |]. split; [reflexivity |].
  intros o. split; [destruct o; reflexivity |].
  rewrite <- (verify_arg_cases base ca). destruct o; reflexivity.
Qed.

(** * Further properties of the methods *)

(** ** Error statuses *)

Lemma error_status_is_caught_witness :
  escapes (answering unauthorized) no_int_of_str (PostCsr "CSR-1" "eyJhbGciOiJIUzI1NiJ9") world0
  = None.
Proof.
  apply (error_status_is_caught (answering unauthorized) no_int_of_str
           (PostCsr "CSR-1" "eyJhbGciOiJIUzI1NiJ9") world0 unauthorized eq_refl).
  cbn. lia.
Defined.

(** X2.  On a response with a client or server error status, [login] and
    [post_csr] hand the logger one ERROR record, [create_first_user] and
    [get_certificate_requests_table] one WARNING record, each with the
    status code and the body text as arguments; the three boolean methods
    log nothing. *)
Theorem failure_is_logged send int_of_str (o : operation) (w : world) (r : Response) :
  send (sent w) (request_of (self w) o) = Responded r ->
  400 <= status_code r < 600 ->
  log (exec send int_of_str o w) =
  (log w ++
   match o with
   | Login _ _ => [failure_record ERROR "couldn't log in: code %s, %s" r]
   | CreateFirstUser _ _ =>
       [failure_record WARNING "couldn't create first user: code %s, %s" r]
   | GetCertificateRequestsTable _ =>
       [failure_record WARNING "couldn't retrieve certificate requests table: code %s, %s" r]
   | PostCsr _ _ =>
       [failure_record ERROR "couldn't post new certificate requests: code %s, %s" r]
   | TokenIsValid _ | IsApiAvailable | IsInitialized => []
   end)%list.
Proof.
  intros Hsend Hstatus. apply is_error_status_iff in Hstatus.
  destruct o; cbn [exec request_of] in *.
  - rewrite login_run. cbn zeta. rewrite Hsend, Hstatus. reflexivity.
  - rewrite token_is_valid_run. cbn zeta. rewrite Hsend. cbn. now rewrite app_nil_r.
  - rewrite is_api_available_run. cbn zeta. rewrite Hsend. cbn. now rewrite app_nil_r.
  - rewrite is_initialized_run. cbn zeta. rewrite Hsend, Hstatus. cbn. now rewrite app_nil_r.
  - rewrite create_first_user_run. cbn zeta. rewrite Hsend, Hstatus. reflexivity.
  - rewrite get_certificate_requests_table_run. cbn zeta. rewrite Hsend, Hstatus. reflexivity.
  - rewrite post_csr_run. cbn zeta. rewrite Hsend, Hstatus. reflexivity.
Qed.

Lemma failure_is_logged_witness :
  log (exec (answering unauthorized) no_int_of_str
         (GetCertificateRequestsTable "eyJhbGciOiJIUzI1NiJ9") world0) =
  [failure_record WARNING "couldn't retrieve certificate requests table: code %s, %s"
     unauthorized].
Proof.
  apply (failure_is_logged (answering unauthorized) no_int_of_str
           (GetCertificateRequestsTable "eyJhbGciOiJIUzI1NiJ9") world0 unauthorized eq_refl).
  cbn. lia.
Defined.

(** ** The log *)

(** X3.  [token_is_valid], [is_api_available] and [is_initialized] never
    log, whatever the outcome of the call. *)
Theorem checks_never_log send (token : string) (w : world) :
  log (snd (token_is_valid send token w)) = log w /\
  log (snd (is_api_available send w)) = log w /\
  log (snd (is_initialized send w)) = log w.
Proof.
  rewrite token_is_valid_run, is_api_available_run, is_initialized_run. cbn zeta.
  split; [| split].
  - destruct (send _ _); reflexivity.
  - destruct (send _ _); reflexivity.
  - destruct (send _ _) as [f | x | r]; [reflexivity | reflexivity |].
    destruct (is_error_status _); [reflexivity |].
    destruct (decoded r) as [[] |]; reflexivity.
Qed.

(** X4.  When the call itself fails, no method logs anything: the four
    methods that would log fail on reading [req] before the logger is
    reached. *)
Theorem transport_failure_logs_nothing (f : failure) (int_of_str : string -> option Z)
    (o : operation) (w : world) :
  log (exec (failing f) int_of_str o w) = log w.
Proof.
  destruct o; cbn [exec].
  - rewrite login_run. reflexivity.
  - rewrite token_is_valid_run. reflexivity.
  - rewrite is_api_available_run. reflexivity.
  - rewrite is_initialized_run. reflexivity.
  - rewrite create_first_user_run. reflexivity.
  - rewrite get_certificate_requests_table_run. reflexivity.
  - rewrite post_csr_run. reflexivity.
Qed.

Lemma exec_log send int_of_str (o : operation) (w : world) :
  exists l, log (exec send int_of_str o w) = (log w ++ l)%list /\ (length l <= 1)%nat.
Proof.
  assert (Hnone : forall w' : world, log w' = log w ->
            exists l, log w' = (log w ++ l)%list /\ (length l <= 1)%nat).
  { intros w' E. exists []. rewrite app_nil_r. split; [exact E | cbn; lia]. }
  assert (Hone : forall (w' : world) e, log w' = log w ->
            exists l, log (with_log w' e) = (log w ++ l)%list /\ (length l <= 1)%nat).
  { intros w' e E. exists [e]. cbn. rewrite E. split; [reflexivity | lia]. }
  destruct o; cbn [exec].
  - rewrite login_run. cbn zeta.
    destruct (send _ _) as [f | x | r]; [| | destruct (is_error_status _)]; cbn [snd];
      first [now apply Hone | now apply Hnone].
  - rewrite token_is_valid_run. cbn zeta. destruct (send _ _); now apply Hnone.
  - rewrite is_api_available_run. cbn zeta. destruct (send _ _); now apply Hnone.
  - rewrite is_initialized_run. cbn zeta.
    destruct (send _ _) as [f | x | r]; [| | destruct (is_error_status _)];
      [| | | destruct (decoded r) as [[] |]]; now apply Hnone.
  - rewrite create_first_user_run. cbn zeta.
    destruct (send _ _) as [f | x | r]; [| | destruct (is_error_status _)];
      [| | | destruct (decoded r)]; cbn [snd]; first [now apply Hone | now apply Hnone].
  - rewrite get_certificate_requests_table_run. cbn zeta.
    destruct (send _ _) as [f | x | r]; [| | destruct (is_error_status _)];
      [| | | destruct (decoded r)]; cbn [snd]; first [now apply Hone | now apply Hnone].
  - rewrite post_csr_run. cbn zeta.
    destruct (send _ _) as [f | x | r]; [| | destruct (is_error_status _)]; cbn [snd];
      first [now apply Hone | now apply Hnone].
Qed.

(** X5.  Over any sequence of calls the log only grows at its end, by at
    most one record per call: no method removes or rewrites a record. *)
Theorem log_is_append_only send int_of_str (ops : list operation) (w : world) :
  exists l,
    log (exec_all send int_of_str ops w) = (log w ++ l)%list /\
    (length l <= length ops)%nat.
Proof.
  revert w. induction ops as [| o ops IH]; intros w.
  - exists []. cbn. rewrite app_nil_r. split; [reflexivity | lia].
  - destruct (exec_log send int_of_str o w) as (l1 & H1 & L1).
    destruct (IH (exec send int_of_str o w)) as (l2 & H2 & L2).
    exists (l1 ++ l2)%list. cbn [exec_all fold_left]. unfold exec_all in H2.
    rewrite H2, H1, <- app_assoc, length_app. split; [reflexivity | cbn; lia].
Qed.

(** ** Bodies that are not what the method expects *)

(** X6.  [req.json()] stands outside the [try] block.  On a response that
    [raise_for_status] lets pass and whose body is no JSON document,
    [is_initialized], [create_first_user] and
    [get_certificate_requests_table] let [JSONDecodeError] out; the four
    other methods never decode the body and are unaffected. *)
Theorem undecodable_body_escapes send int_of_str (o : operation) (w : world) (r : Response) :
  send (sent w) (request_of (self w) o) = Responded r ->
  ~ 400 <= status_code r < 600 ->
  decoded r = None ->
  escapes send int_of_str o w =
  match o with
  | IsInitialized | CreateFirstUser _ _ | GetCertificateRequestsTable _ => Some JSONDecodeError
  | Login _ _ | TokenIsValid _ | IsApiAvailable | PostCsr _ _ => None
  end.
Proof.
  intros Hsend Hstatus Hbody. apply is_error_status_false_iff in Hstatus.
  destruct o; cbn [escapes request_of] in *.
  - rewrite login_run. cbn zeta. rewrite Hsend, Hstatus. reflexivity.
  - rewrite token_is_valid_run. cbn zeta. rewrite Hsend. reflexivity.
  - rewrite is_api_available_run. cbn zeta. rewrite Hsend. reflexivity.
  - rewrite is_initialized_run. cbn zeta. rewrite Hsend, Hstatus, Hbody. reflexivity.
  - rewrite create_first_user_run. cbn zeta. rewrite Hsend, Hstatus, Hbody. reflexivity.
  - rewrite get_certificate_requests_table_run. cbn zeta.
    rewrite Hsend, Hstatus, Hbody. reflexivity.
  - rewrite post_csr_run. cbn zeta. rewrite Hsend. reflexivity.
Qed.

Lemma undecodable_body_escapes_witness :
  escapes (answering html_page) no_int_of_str IsInitialized world0 = Some JSONDecodeError.
Proof.
  apply (undecodable_body_escapes (answering html_page) no_int_of_str IsInitialized world0
           html_page eq_refl); [cbn; lia | reflexivity].
Defined.

(** X7.  [is_initialized] and [create_first_user] call [get] on the
    decoded body.  When the body decodes to anything but an object (an
    array, a string, a number, [true], [null]) [AttributeError] leaves
    the method. *)
Theorem body_without_get_escapes send int_of_str (o : operation) (w : world)
    (r : Response) (body : pyobj) :
  send (sent w) (request_of (self w) o) = Responded r ->
  ~ 400 <= status_code r < 600 ->
  decoded r = Some body ->
  is_dict body = false ->
  match o with
  | IsInitialized | CreateFirstUser _ _ => escapes send int_of_str o w = Some AttributeError
  | _ => True
  end.
Proof.
  intros Hsend Hstatus Hbody Hshape. apply is_error_status_false_iff in Hstatus.
  destruct o; cbn [escapes request_of] in *; try exact I.
  - rewrite is_initialized_run. cbn zeta. rewrite Hsend, Hstatus, Hbody.
    destruct body; try reflexivity; discriminate.
  - rewrite create_first_user_run. cbn zeta. rewrite Hsend, Hstatus, Hbody.
    destruct body; try reflexivity; discriminate.
Qed.

Lemma body_without_get_escapes_witness :
  escapes (answering empty_table) no_int_of_str (CreateFirstUser "admin" "Secret123") world0
  = Some AttributeError.
Proof.
  apply (body_without_get_escapes (answering empty_table) no_int_of_str
           (CreateFirstUser "admin" "Secret123") world0 empty_table (PyList []) eq_refl);
    [cbn; lia | reflexivity | reflexivity].
Defined.

(** ** [is_initialized], continued *)

(** X8.  On a response that [raise_for_status] lets pass and whose body is
    an object with the field ["initialized"], [is_initialized] returns
    the value of that field as it is. *)
Theorem is_initialized_returns_field send (w : world) (r : Response)
    (items : list (string * pyobj)) (v : pyobj) :
  send (sent w) (status_request (self w)) = Responded r ->
  ~ 400 <= status_code r < 600 ->
  decoded r = Some (PyDict items) ->
  dict_lookup items "initialized" = Some v ->
  fst (is_initialized send w) = Returns v.
Proof.
  intros Hsend Hstatus Hbody Hfield. apply is_error_status_false_iff in Hstatus.
  rewrite is_initialized_run. cbn zeta. rewrite Hsend, Hstatus, Hbody.
  unfold dict_get. rewrite Hfield. reflexivity.
Qed.

Lemma is_initialized_returns_field_witness :
  fst (is_initialized (answering status_initialized) world0) = Returns (PyBool true).
Proof.
  apply (is_initialized_returns_field (answering status_initialized) world0
           status_initialized [("initialized", PyBool true)] (PyBool true) eq_refl);
    [cbn; lia | reflexivity | reflexivity].
Defined.

(** X9.  [is_api_available] and [is_initialized] send the same request.
    In a world where [is_api_available] returns [False],
    [is_initialized] returns [False] too: a server is never reported
    initialized while it is reported unavailable. *)
Theorem unavailable_is_not_initialized send (w : world) :
  fst (is_api_available send w) = Returns false ->
  fst (is_initialized send w) = Returns (PyBool false).
Proof.
  rewrite is_api_available_run, is_initialized_run. cbn zeta.
  destruct (send _ _) as [f | x | r]; [reflexivity | discriminate |].
  destruct (is_error_status (status_code r)); [reflexivity | discriminate].
Qed.

Lemma unavailable_is_not_initialized_witness :
  fst (is_initialized (failing Timeout) world0) = Returns (PyBool false).
Proof.
  exact (unavailable_is_not_initialized (failing Timeout) world0 eq_refl).
Defined.

(** ** [login], continued *)

(** X10.  The ways a call of [login] ends, each traced back to the
    outcome of the request: [None] exactly on a response with a client
    or server error status; a token exactly on a response with any
    other status (the token is the body text); an exception exactly
    when the call raised: [UnboundLocalError] after a failure the
    handler caught, and the call's own exception when it is of a class
    the handler does not catch. *)
Theorem login_outcomes send (u p : string) (w : world) :
  (fst (login send u p w) = Returns None <->
   exists r, send (sent w) (login_request (self w) u p) = Responded r /\
             400 <= status_code r < 600) /\
  (forall t, fst (login send u p w) = Returns (Some t) <->
   exists r, send (sent w) (login_request (self w) u p) = Responded r /\
             ~ 400 <= status_code r < 600 /\ t = text r) /\
  (forall e, fst (login send u p w) = Raises e <->
   (e = UnboundLocalError /\
    exists f, send (sent w) (login_request (self w) u p) = Failed f) \/
   (exists x, send (sent w) (login_request (self w) u p) = Threw x /\ e = stray_exn x)).
Proof.
  rewrite login_run. cbn zeta.
  destruct (send (sent w) (login_request (self w) u p)) as [f | x | r]; cbn [fst].
  - split; [| split].
    + split; [discriminate | intros (r & Hr & _); discriminate].
    + intros t. split; [discriminate | intros (r & Hr & _); discriminate].
    + intros e. split.
      * intros [= <-]. left. split; [reflexivity | exists f; reflexivity].
      * intros [[-> _] | (x & Hx & _)]; [reflexivity | discriminate].
  - split; [| split].
    + split; [discriminate | intros (r & Hr & _); discriminate].
    + intros t. split; [discriminate | intros (r & Hr & _); discriminate].
    + intros e. split.
      * intros [= <-]. right. exists x. split; reflexivity.
      * intros [[_ (f & Hf)] | (x' & Hx & ->)]; [discriminate |].
        injection Hx as <-. reflexivity.
  - destruct (is_error_status (status_code r)) eqn:E; cbn [fst].
    + apply is_error_status_iff in E. split; [| split].
      * split; [intros _; exists r; split; [reflexivity | assumption] | reflexivity].
      * intros t. split; [discriminate |].
        intros (r' & Hr & Hn & _). injection Hr as <-. contradiction.
      * intros e. split; [discriminate |].
        intros [[_ (f & Hf)] | (x & Hx & _)]; discriminate.
    + apply is_error_status_false_iff in E. split; [| split].
      * split; [discriminate |].
        intros (r' & Hr & Hs). injection Hr as <-. contradiction.
      * intros t. split.
        -- intros [= <-]. exists r. repeat split; assumption.
        -- intros (r' & Hr & _ & ->). injection Hr as <-. reflexivity.
      * intros e. split; [discriminate |].
        intros [[_ (f & Hf)] | (x & Hx & _)]; discriminate.
Qed.

(** ** [create_first_user], continued *)

Lemma create_first_user_responded_witness :
  fst (create_first_user (answering created) no_int_of_str "admin" "Secret123" world0)
  = Returns (Some 1) /\
  fst (create_first_user (answering unauthorized) no_int_of_str "admin" "Secret123" world0)
  = Returns None.
Proof.
  split.
  - apply (proj1 (create_first_user_responded (answering created) no_int_of_str "admin"
                    "Secret123" world0 created eq_refl) [("id", PyInt 1)] 1);
      [reflexivity | reflexivity | reflexivity | discriminate].
  - apply (proj2 (create_first_user_responded (answering unauthorized) no_int_of_str "admin"
                    "Secret123" world0 unauthorized eq_refl)).
    cbn. lia.
Defined.

(** X12.  [create_first_user] returns [None] on a response it took for a
    success when the body is an object whose ["id"] is missing, [null]
    or zero: the conditional [int(id) if id else None] tests the
    truth value of the id.  The success is logged all the same. *)
Theorem create_first_user_without_id send int_of_str (u p : string) (w : world)
    (r : Response) (items : list (string * pyobj)) :
  send (sent w) (first_user_request (self w) u p) = Responded r ->
  ~ 400 <= status_code r < 600 ->
  decoded r = Some (PyDict items) ->
  dict_lookup items "id" = None \/
  dict_lookup items "id" = Some PyNone \/
  dict_lookup items "id" = Some (PyInt 0) ->
  fst (create_first_user send int_of_str u p w) = Returns None /\
  log (snd (create_first_user send int_of_str u p w)) =
    (log w ++ [ {| levelname := INFO; msg := "created the first user in GoCert.";
                   args := [] |} ])%list.
Proof.
  intros Hsend Hstatus Hbody Hid. apply is_error_status_false_iff in Hstatus.
  rewrite create_first_user_run. cbn zeta. rewrite Hsend, Hstatus, Hbody.
  unfold account_id, dict_get.
  destruct Hid as [-> | [-> | ->]]; split; reflexivity.
Qed.

Lemma create_first_user_without_id_witness :
  fst (create_first_user (answering created_without_id) no_int_of_str "admin" "Secret123"
         world0) = Returns None /\
  log (snd (create_first_user (answering created_without_id) no_int_of_str "admin"
              "Secret123" world0)) =
    [ {| levelname := INFO; msg := "created the first user in GoCert."; args := [] |} ].
Proof.
  apply (create_first_user_without_id (answering created_without_id) no_int_of_str
           "admin" "Secret123" world0 created_without_id [("username", PyStr "admin")]
           eq_refl); [cbn; lia | reflexivity | left; reflexivity].
Defined.

(** ** [get_certificate_requests_table], continued *)

Lemma falsy_table_is_a_collection_witness :
  fst (get_certificate_requests_table (answering null_table) "eyJhbGciOiJIUzI1NiJ9" world0)
  = Returns (Some (mkCertificateRequests [])).
Proof.
  exact (falsy_table_is_a_collection (answering null_table) "eyJhbGciOiJIUzI1NiJ9" world0
           null_table PyNone eq_refl eq_refl eq_refl eq_refl).
Defined.

(** X14.  On a response that [raise_for_status] lets pass and whose body
    is an array of objects, the i-th row is built from the i-th object
    with [get]: a field the object lacks becomes [None] in the row, and
    no type is checked. *)
Theorem table_of_objects send (token : string) (w : world) (r : Response)
    (table : list pyobj) :
  send (sent w) (table_request (self w) token) = Responded r ->
  ~ 400 <= status_code r < 600 ->
  decoded r = Some (PyList table) ->
  forallb is_dict table = true ->
  exists rs,
    fst (get_certificate_requests_table send token w)
    = Returns (Some (mkCertificateRequests rs)) /\
    length rs = length table /\
    forall i items, nth_error table i = Some (PyDict items) ->
      exists row,
        nth_error rs i = Some row /\
        id row = match dict_lookup items "id" with Some v => v | None => PyNone end /\
        csr row = match dict_lookup items "csr" with Some v => v | None => PyNone end /\
        certificate row =
          match dict_lookup items "certificate" with Some v => v | None => PyNone end.
Proof.
  intros Hsend Hstatus Hbody Hdicts. apply is_error_status_false_iff in Hstatus.
  exists (map record_of table).
  rewrite get_certificate_requests_table_run. cbn zeta.
  rewrite Hsend, Hstatus, Hbody, (table_rows_of_objects _ Hdicts).
  split; [reflexivity |]. split; [apply length_map |].
  intros i items Hi. exists (record_of (PyDict items)).
  rewrite nth_error_map, Hi. repeat split.
Qed.

Lemma table_of_objects_witness :
  exists rs,
    fst (get_certificate_requests_table (answering table_of_partial) "eyJhbGciOiJIUzI1NiJ9"
           world0)
    = Returns (Some (mkCertificateRequests rs)) /\
    length rs = length partial_rows /\
    forall i items, nth_error partial_rows i = Some (PyDict items) ->
      exists row,
        nth_error rs i = Some row /\
        id row = match dict_lookup items "id" with Some v => v | None => PyNone end /\
        csr row = match dict_lookup items "csr" with Some v => v | None => PyNone end /\
        certificate row =
          match dict_lookup items "certificate" with Some v => v | None => PyNone end.
Proof.
  apply (table_of_objects (answering table_of_partial) "eyJhbGciOiJIUzI1NiJ9" world0
           table_of_partial partial_rows eq_refl); [cbn; lia | reflexivity | reflexivity].
Defined.

Example partial_row_has_no_certificate :
  fst (get_certificate_requests_table (answering table_of_partial) "eyJhbGciOiJIUzI1NiJ9"
         world0)
  = Returns (Some (mkCertificateRequests
                     [mkCertificateRequest (PyInt 3) (PyStr "CSR-3") PyNone])).
Proof. reflexivity. Qed.

(** X15.  What the method makes of a truthy body that
    [raise_for_status] let pass, shape by shape: an array gives its rows
    when every element is an object and [AttributeError] otherwise; an
    object or a string is iterated as strings, which have no [get], so
    [AttributeError]; a number or [true] cannot be iterated, so
    [TypeError].  Nothing is logged in any of these cases. *)
Theorem table_body_shapes send (token : string) (w : world) (r : Response) (body : pyobj) :
  send (sent w) (table_request (self w) token) = Responded r ->
  ~ 400 <= status_code r < 600 ->
  decoded r = Some body ->
  truthy body = true ->
  get_certificate_requests_table send token w =
  (match body with
   | PyList xs =>
       if forallb is_dict xs
       then Returns (Some (mkCertificateRequests (map record_of xs)))
       else Raises AttributeError
   | PyDict _ | PyStr _ => Raises AttributeError
   | PyNone | PyBool _ | PyInt _ | PyFloat _ => Raises TypeError
   end,
   with_sent w (table_request (self w) token)).
Proof.
  intros Hsend Hstatus Hbody Htruthy. apply is_error_status_false_iff in Hstatus.
  rewrite get_certificate_requests_table_run. cbn zeta.
  rewrite Hsend, Hstatus, Hbody. unfold table_rows. rewrite Htruthy.
  destruct body as [| b | n | f | s | xs | items]; try reflexivity.
  - destruct s; [discriminate | reflexivity].
  - unfold rows_from. destruct (forallb is_dict xs); reflexivity.
  - destruct items as [| [k v] rest]; [discriminate | reflexivity].
Qed.

Lemma table_body_shapes_witness :
  get_certificate_requests_table (answering error_document) "eyJhbGciOiJIUzI1NiJ9" world0 =
  (Raises AttributeError,
   with_sent world0 (table_request client0 "eyJhbGciOiJIUzI1NiJ9")).
Proof.
  apply (table_body_shapes (answering error_document) "eyJhbGciOiJIUzI1NiJ9" world0
           error_document (PyDict [("error", PyStr "busy")]) eq_refl);
    [cbn; lia | reflexivity | reflexivity].
Defined.

(** ** The configuration, continued *)

(** X16.  A client constructed with the empty string as CA path behaves
    on the wire as one constructed with no CA path: over any sequence of
    calls both send the same requests when given the same answers, each
    with [verify=None]. *)
Theorem empty_ca_path_is_no_ca_path send int_of_str (base : string)
    (ops : list operation) :
  sent (exec_all send int_of_str ops (new_world (init base (Some EmptyString)))) =
  sent (exec_all send int_of_str ops (new_world (init base None))) /\
  Forall (fun rq => verify rq = None)
    (sent (exec_all send int_of_str ops (new_world (init base (Some EmptyString))))).
Proof.
  destruct (exec_all_frame send int_of_str ops (new_world (init base (Some EmptyString))))
    as [_ ->].
  destruct (exec_all_frame send int_of_str ops (new_world (init base None))) as [_ ->].
  cbn [sent new_world self app]. split.
  - apply map_ext. intros o. destruct o; reflexivity.
  - apply Forall_forall. intros rq Hin. apply in_map_iff in Hin.
    destruct Hin as (o & <- & _). destruct o; reflexivity.
Qed.


(** ** Exceptions the handlers do not catch *)

(** X17.  An exception of the call that is neither a [RequestException]
    nor an [OSError] passes through every method as it is: no handler
    runs, nothing is logged, and no method turns it into a return
    value. *)
Theorem stray_exception_propagates send int_of_str (o : operation) (w : world) (x : stray) :
  send (sent w) (request_of (self w) o) = Threw x ->
  escapes send int_of_str o w = Some (stray_exn x) /\
  log (exec send int_of_str o w) = log w.
Proof.
  intros Hsend.
  destruct o; cbn [escapes exec request_of] in *.
  - rewrite login_run. cbn zeta. rewrite Hsend. split; reflexivity.
  - rewrite token_is_valid_run. cbn zeta. rewrite Hsend. split; reflexivity.
  - rewrite is_api_available_run. cbn zeta. rewrite Hsend. split; reflexivity.
  - rewrite is_initialized_run. cbn zeta. rewrite Hsend. split; reflexivity.
  - rewrite create_first_user_run. cbn zeta. rewrite Hsend. split; reflexivity.
  - rewrite get_certificate_requests_table_run. cbn zeta. rewrite Hsend. split; reflexivity.
  - rewrite post_csr_run. cbn zeta. rewrite Hsend. split; reflexivity.
Qed.

Lemma stray_exception_propagates_witness :
  escapes checking_headers no_int_of_str (PostCsr "CSR-1" ("eyJhbGciOiJIUzI1NiJ9" ++ newline))
    world0 = Some ValueError /\
  log (exec checking_headers no_int_of_str
         (PostCsr "CSR-1" ("eyJhbGciOiJIUzI1NiJ9" ++ newline)) world0) = log world0.
Proof.
  exact (stray_exception_propagates checking_headers no_int_of_str
           (PostCsr "CSR-1" ("eyJhbGciOiJIUzI1NiJ9" ++ newline)) world0 InvalidHeaderValue
           eq_refl).
Defined.
